(** * Workflow dashboard: the state-derivation layer

    Shallow embedding of [src/dashboard/src/components/workflow-dashboard.tsx]:
    the relative-time formatter [formatRelative], the filter
    [filteredWorkflows], the selection resolver [selectedWorkflow], the
    summary wiring and the four [useState] cells of [WorkflowDashboard].

    Conventions.
    - A JavaScript string is a [string]; [String.prototype.toLowerCase] is a
      built-in whose Unicode tables are not part of the repository, so the
      component is modelled in a Section over an arbitrary [toLowerCase].
      [ascii_toLowerCase] is its restriction to ASCII, used to run examples.
    - A time value ([Date.prototype.getTime]) is an integer number of
      milliseconds, a [Z]; the time value of an unparsable ISO string is NaN,
      modelled as [None].  Quotients such as [diffMs / 60000] are handled as
      exact fractions (numerator, denominator): binary floating point is not
      modelled.
    - [useMemo] recomputes a pure function of its dependencies, so each
      memoised value is a function of the props and of the state cells. *)

From Stdlib Require Import ZArith QArith Lia List Bool.
From Stdlib Require Import Strings.String Strings.Ascii Numbers.DecimalString.
From Stdlib Require Import QArith.Qminmax Lqa.
From stdpp Require Import base list strings.

Local Open Scope string_scope.
Local Open Scope Z_scope.

(** ** JavaScript built-ins used by the component *)

Module JS.

(** [Math.round(n / d)] for integers [n] and [d > 0]: the nearest integer,
    a tie going towards +infinity ([Math.round(2.5) = 3],
    [Math.round(-1.5) = -1], [Math.round(-0.5) = -0]). *)
Definition Math_round (n d : Z) : Z := (2 * n + d) / (2 * d).

(** [Math.abs] on integers. *)
Definition Math_abs (n : Z) : Z := Z.abs n.

(** Template-literal rendering [`${n}`] of an integer. *)
Definition toString (n : Z) : string := NilZero.string_of_int (Z.to_int n).

(** [t] is a prefix of [s] ([s.startsWith(t)]). *)
Fixpoint startsWith (s t : string) : bool :=
  match t, s with
  | EmptyString, _ => true
  | String _ _, EmptyString => false
  | String b t', String a s' => if Ascii.eqb a b then startsWith s' t' else false
  end.

(** [s.includes(t)]: [t] occurs in [s] as a contiguous substring. *)
Fixpoint includes (s t : string) : bool :=
  startsWith s t ||
  match s with
  | EmptyString => false
  | String _ s' => includes s' t
  end.

(** [a ?? b] where [undefined]/[null] is [None]. *)
Definition nullish {A : Type} (a b : option A) : option A :=
  match a with
  | Some x => Some x
  | None => b
  end.

(** [a ?? b] with a right operand that is never [undefined]. *)
Definition nullishOr {A : Type} (a : option A) (b : A) : A :=
  match a with
  | Some x => x
  | None => b
  end.

(** [Array.prototype.find]: the first element satisfying the callback. *)
Definition find {A : Type} (f : A -> bool) (l : list A) : option A :=
  List.find f l.

(** [String.prototype.toLowerCase] restricted to ASCII letters. *)
Definition ascii_lower (c : ascii) : ascii :=
  let n := nat_of_ascii c in
  if (Nat.leb 65 n && Nat.leb n 90)%bool then ascii_of_nat (n + 32) else c.

Fixpoint ascii_toLowerCase (s : string) : string :=
  match s with
  | EmptyString => EmptyString
  | String c s' => String (ascii_lower c) (ascii_toLowerCase s')
  end.

End JS.

(** ** Data model *)

Inductive WorkflowStatus : Set := healthy | warning | failed | paused.

(** The type [WorkflowStatus | "all"] of the status filter. *)
Inductive StatusFilter : Set :=
| StatusAll
| StatusIs (s : WorkflowStatus).

Inductive SlaBreachRisk : Set := low | medium | high.

Definition WorkflowStatus_eqb (a b : WorkflowStatus) : bool :=
  match a, b with
  | healthy, healthy | warning, warning | failed, failed | paused, paused => true
  | _, _ => false
  end.

(** Modelled from the spec: the [Run] type of [@/data/workflows], which is
    not part of the sources; fields as the data model lists them and as the
    component reads them. *)
Record Run : Type := mkRun {
  run_id : string;
  timestamp : string;
  durationSeconds : Q;
  errors : N
}.

(** Modelled from the spec: the [Workflow] type of [@/data/workflows], which
    is not part of the sources; fields as the data model lists them and as
    the component reads them. *)
Record Workflow : Type := mkWorkflow {
  id : string;
  name : string;
  client : string;
  owner : string;
  status : WorkflowStatus;
  triggers : list string;
  runsToday : N;
  successRate : Q;
  slaBreachRisk : SlaBreachRisk;
  lastRunAt : string;
  nextRunAt : option string;
  runHistory : list Run
}.

(** ** The relative-time formatter (lines 60-80) *)

(** The time value of [new Date(iso)]: [Some ms], or [None] for the NaN of an
    Invalid Date.  Parsing the ISO string is the [Date] constructor's work and
    stays outside the model. *)
Definition TimeValue : Type := option Z.

(** A computation that reads the system clock: it is run with the time value
    that [new Date()] yields at the moment of the call. *)
Definition Clock (A : Type) : Type := Z -> A.

Definition new_Date : Clock Z := fun wall => wall.

Definition clock_ret {A : Type} (a : A) : Clock A := fun _ => a.

Definition clock_bind {A B : Type} (m : Clock A) (k : A -> Clock B) : Clock B :=
  fun wall => k (m wall) wall.

(** Lines 64-72, the branch [diffMs < 0]. *)
Definition formatFuture (diffMs : Z) : string :=
  let futureMinutes := JS.Math_abs (JS.Math_round diffMs 60000) in
  if futureMinutes <? 1 then "In moments"
  else if futureMinutes <? 60 then "In " +:+ JS.toString futureMinutes +:+ " min"
  else
    let futureHours := JS.Math_round futureMinutes 60 in
    if futureHours <? 24 then "In " +:+ JS.toString futureHours +:+ " hr"
    else
      let futureDays := JS.Math_round futureHours 24 in
      "In " +:+ JS.toString futureDays +:+ "d".

(** Lines 73-79, reached when [diffMs < 0] is false. *)
Definition formatPast (diffMs : Z) : string :=
  let diffMins := JS.Math_round diffMs 60000 in
  if diffMins <? 1 then "Now"
  else if diffMins <? 60 then JS.toString diffMins +:+ " min ago"
  else
    let diffHours := JS.Math_round diffMins 60 in
    if diffHours <? 24 then JS.toString diffHours +:+ " hr ago"
    else
      let diffDays := JS.Math_round diffHours 24 in
      JS.toString diffDays +:+ "d ago".

(** The body of [formatRelative] once [now] has been read.  With an Invalid
    Date every comparison on NaN is false and the last template is reached. *)
Definition formatRelativeAt (now : Z) (then_ : TimeValue) : string :=
  match then_ with
  | None => "NaNd ago"
  | Some t =>
      let diffMs := now - t in
      if diffMs <? 0 then formatFuture diffMs else formatPast diffMs
  end.

(** [formatRelative(iso)]: its only argument is the target; the reference
    instant is read from the clock on line 61. *)
Definition formatRelative (then_ : TimeValue) : Clock string :=
  clock_bind new_Date (fun now => clock_ret (formatRelativeAt now then_)).

(** *** The rounding rules the specification names

    Both round the fraction [n / d] ([d > 0]) to a nearest integer and differ
    from [Math.round] only on ties. *)

Definition round_half_away (n d : Z) : Z :=
  Z.sgn n * ((2 * Z.abs n + d) / (2 * d)).

Definition round_half_even (n d : Z) : Z :=
  let q := n / d in
  let r := n mod d in
  if 2 * r <? d then q
  else if d <? 2 * r then q + 1
  else if Z.even q then q else q + 1.

(** The formatter as the specification words it, over a rounding rule [rnd]
    used at every tier: the delta in whole minutes, then the hour- and
    day-rounded values, each derived from the magnitude one tier below. *)
Definition spec_relativeLabel (rnd : Z -> Z -> Z) (now target : Z) : string :=
  let delta := rnd (now - target) 60000 in
  let m := Z.abs delta in
  let h := rnd m 60 in
  let d := rnd h 24 in
  if now - target <? 0 then
    if m <? 1 then "In moments"
    else if m <? 60 then "In " +:+ JS.toString m +:+ " min"
    else if h <? 24 then "In " +:+ JS.toString h +:+ " hr"
    else "In " +:+ JS.toString d +:+ "d"
  else
    if m <? 1 then "Now"
    else if m <? 60 then JS.toString m +:+ " min ago"
    else if h <? 24 then JS.toString h +:+ " hr ago"
    else JS.toString d +:+ "d ago".

(** ** Summary metrics *)

(** A JavaScript number as far as the averages need it: a finite value, an
    infinity, or NaN. *)
Inductive number : Type :=
| Finite (q : Q)
| PosInfinity
| NegInfinity
| NaN.

(** The [/] operator on finite operands: [0 / 0] is NaN and [x / 0] an
    infinity. *)
Definition js_div (a b : Q) : number :=
  if Qeq_bool b 0 then
    if Qeq_bool a 0 then NaN
    else if Qle_bool 0 a then PosInfinity else NegInfinity
  else Finite (a / b).

(** Modelled from the spec: the [Summary] record returned by
    [computeSummaryMetrics] of [@/lib/metrics], which is not part of the
    sources. *)
Record Summary : Type := mkSummary {
  totalWorkflows : N;
  healthyCount : N;
  warningCount : N;
  failedCount : N;
  pausedCount : N;
  totalRunsToday : N;
  avgSuccessRate : number;
  averageDurationSeconds : number
}.

(** Modelled from the spec: the per-status counts of the summary. *)
Definition countStatus (s : WorkflowStatus) (workflows : list Workflow) : N :=
  N.of_nat (length (List.filter (fun wf => WorkflowStatus_eqb (status wf) s) workflows)).

Definition sumQ (l : list Q) : Q := fold_right Qplus 0%Q l.

Definition sumN (l : list N) : N := fold_right N.add 0%N l.

Definition NtoQ (n : N) : Q := inject_Z (Z.of_N n).

(** Modelled from the spec: the mean of [l] with the mandatory guard on the
    division, [0] for an empty [l]. *)
Definition meanOrZero (l : list Q) : number :=
  match l with
  | [] => Finite 0
  | _ :: _ => js_div (sumQ l) (NtoQ (N.of_nat (length l)))
  end.

(** Modelled from the spec: [computeSummaryMetrics] of [@/lib/metrics], which
    is not part of the sources (the specification calls it [summarize]):
    counts per status, the sum of [runsToday], the arithmetic mean of
    [successRate] over the input and the mean of [durationSeconds] over the
    flattened run histories, both means being [0] when there is nothing to
    average. *)
Definition computeSummaryMetrics (workflows : list Workflow) : Summary :=
  {| totalWorkflows := N.of_nat (length workflows);
     healthyCount := countStatus healthy workflows;
     warningCount := countStatus warning workflows;
     failedCount := countStatus failed workflows;
     pausedCount := countStatus paused workflows;
     totalRunsToday := sumN (List.map runsToday workflows);
     avgSuccessRate := meanOrZero (List.map successRate workflows);
     averageDurationSeconds :=
       meanOrZero (List.map durationSeconds (List.concat (List.map runHistory workflows))) |}.

(** ** The component [WorkflowDashboard] (lines 82-123) *)

(** The four [useState] cells. *)
Record DashboardState : Type := mkState {
  clientFilter : string;
  statusFilter : StatusFilter;
  searchTerm : string;
  selectedWorkflowId : string
}.

(** Lines 87-92: the initial values of the cells;
    [initialWorkflows[0]?.id ?? ""] for the selection. *)
Definition initialState (initialWorkflows : list Workflow) : DashboardState :=
  {| clientFilter := "all";
     statusFilter := StatusAll;
     searchTerm := "";
     selectedWorkflowId :=
       JS.nullishOr (id <$> initialWorkflows !! 0%nat) "" |}.

(** The handlers of the markup: the client [select] (line 184), the status
    buttons (line 202), the search [input] (line 212) and the workflow rows
    (line 231).  Each calls the setter of one cell. *)
Inductive Action : Type :=
| SetClientFilter (value : string)
| SetStatusFilter (value : StatusFilter)
| SetSearchTerm (value : string)
| SetSelectedWorkflowId (workflowId : string).

Definition dispatch (st : DashboardState) (a : Action) : DashboardState :=
  match a with
  | SetClientFilter v =>
      {| clientFilter := v; statusFilter := statusFilter st;
         searchTerm := searchTerm st; selectedWorkflowId := selectedWorkflowId st |}
  | SetStatusFilter v =>
      {| clientFilter := clientFilter st; statusFilter := v;
         searchTerm := searchTerm st; selectedWorkflowId := selectedWorkflowId st |}
  | SetSearchTerm v =>
      {| clientFilter := clientFilter st; statusFilter := statusFilter st;
         searchTerm := v; selectedWorkflowId := selectedWorkflowId st |}
  | SetSelectedWorkflowId v =>
      {| clientFilter := clientFilter st; statusFilter := statusFilter st;
         searchTerm := searchTerm st; selectedWorkflowId := v |}
  end.

Definition dispatchAll (st : DashboardState) (acts : list Action) : DashboardState :=
  fold_left dispatch acts st.

(** The actions that update one of the three filter fields. *)
Definition isFilterAction (a : Action) : bool :=
  match a with
  | SetSelectedWorkflowId _ => false
  | _ => true
  end.

(** [===] on values of type [WorkflowStatus | "all"]. *)
Definition StatusFilter_eqb (a b : StatusFilter) : bool :=
  match a, b with
  | StatusAll, StatusAll => true
  | StatusIs s, StatusIs s' => WorkflowStatus_eqb s s'
  | _, _ => false
  end.

Section Component.

(** [String.prototype.toLowerCase]. *)
Variable toLowerCase : string -> string.

(** The callback of [initialWorkflows.filter] (lines 100-110). *)
Definition workflowMatches (st : DashboardState) (workflow : Workflow) : bool :=
  let matchesClient :=
    String.eqb (clientFilter st) "all" || String.eqb (client workflow) (clientFilter st) in
  let matchesStatus :=
    StatusFilter_eqb (statusFilter st) StatusAll
    || StatusFilter_eqb (StatusIs (status workflow)) (statusFilter st) in
  let matchesSearch :=
    (Nat.eqb (String.length (searchTerm st)) 0
     || JS.includes (toLowerCase (name workflow)) (toLowerCase (searchTerm st))
     || JS.includes (toLowerCase (client workflow)) (toLowerCase (searchTerm st)))%bool in
  matchesClient && matchesStatus && matchesSearch.

(** Lines 99-111. *)
Definition filteredWorkflows (initialWorkflows : list Workflow) (st : DashboardState)
  : list Workflow :=
  List.filter (workflowMatches st) initialWorkflows.

(** Lines 113-116. *)
Definition summary (initialWorkflows : list Workflow) (st : DashboardState) : Summary :=
  computeSummaryMetrics (filteredWorkflows initialWorkflows st).

(** Lines 118-123, on an arbitrary sequence: [find(...) ?? filtered[0]],
    then [?? null]. *)
Definition resolveSelection (filtered : list Workflow) (selectedId : string)
  : option Workflow :=
  let byId :=
    JS.nullish (JS.find (fun workflow => String.eqb (id workflow) selectedId) filtered)
               (filtered !! 0%nat) in
  JS.nullish byId None.

Definition selectedWorkflow (initialWorkflows : list Workflow) (st : DashboardState)
  : option Workflow :=
  resolveSelection (filteredWorkflows initialWorkflows st) (selectedWorkflowId st).

End Component.

(** ** The filter as the specification words it *)

Section FilterSpecification.

Variable toLowerCase : string -> string.

(** [s] case-insensitively contains [t]: the case-folded [t] is a contiguous
    part of the case-folded [s]. *)
Definition caseInsensitiveContains (s t : string) : Prop :=
  exists pre post, toLowerCase s = pre +:+ toLowerCase t +:+ post.

(** The inclusion condition of the Filter Engine. *)
Definition admitted (st : DashboardState) (w : Workflow) : Prop :=
  (clientFilter st = "all" \/ client w = clientFilter st) /\
  (statusFilter st = StatusAll \/ StatusIs (status w) = statusFilter st) /\
  (searchTerm st = ""
   \/ caseInsensitiveContains (name w) (searchTerm st)
   \/ caseInsensitiveContains (client w) (searchTerm st)).

End FilterSpecification.

(** ** Sample data for the examples *)

Definition sampleRuns : list Run :=
  [ mkRun "run-1" "2024-05-01T08:00:00Z" 10 0;
    mkRun "run-2" "2024-05-01T09:00:00Z" 20 2 ].

Definition wfSync : Workflow :=
  mkWorkflow "wf-1" "acme-sync" "A" "dana" healthy ["schedule"] 12 (9 # 10) low
    "2024-05-01T09:00:00Z" (Some "2024-05-01T10:00:00Z") sampleRuns.

Definition wfBilling : Workflow :=
  mkWorkflow "wf-2" "Billing Export" "A" "lee" failed ["webhook"] 3 (1 # 2) high
    "2024-05-01T07:30:00Z" None [].

Definition wfReport : Workflow :=
  mkWorkflow "wf-3" "Weekly Report" "B" "kim" warning ["schedule"; "manual"] 1 (3 # 4) medium
    "2024-04-30T23:00:00Z" None [].

Definition sampleWorkflows : list Workflow := [wfSync; wfBilling; wfReport].

(** Client filter "A", the third workflow being the stored selection. *)
Definition stateClientA : DashboardState :=
  {| clientFilter := "A"; statusFilter := StatusAll; searchTerm := "";
     selectedWorkflowId := "wf-3" |}.

(** No client or status filter, search term "N". *)
Definition stateSearchN : DashboardState :=
  {| clientFilter := "all"; statusFilter := StatusAll; searchTerm := "N";
     selectedWorkflowId := "wf-1" |}.

(** The fresh state after a click on the third row. *)
Definition stateThirdSelected : DashboardState :=
  dispatch (initialState sampleWorkflows) (SetSelectedWorkflowId "wf-3").

(** ** The rest of the component: tables, client list and detail pane *)

(** An entry of [statusConfig] (lines 8-32). *)
Record StatusStyle : Type := mkStatusStyle {
  label : string;
  badge : string;
  dot : string
}.

Definition statusConfig (s : WorkflowStatus) : StatusStyle :=
  match s with
  | healthy =>
      mkStatusStyle "Healthy"
        "bg-emerald-100 text-emerald-700 border border-emerald-200" "bg-emerald-500"
  | warning =>
      mkStatusStyle "Warning"
        "bg-amber-100 text-amber-700 border border-amber-200" "bg-amber-500"
  | failed =>
      mkStatusStyle "Failed"
        "bg-rose-100 text-rose-700 border border-rose-200" "bg-rose-500"
  | paused =>
      mkStatusStyle "Paused"
        "bg-slate-100 text-slate-600 border border-slate-200" "bg-slate-400"
  end.

(** The buttons of the status selector (lines 40-46): value and label. *)
Definition statusFilters : list (StatusFilter * string) :=
  [ (StatusAll, "All");
    (StatusIs healthy, "Healthy");
    (StatusIs warning, "Warning");
    (StatusIs failed, "Failed");
    (StatusIs paused, "Paused") ].

(** [Set.prototype.add]: a set keeps its values in insertion order and adding
    a value it already holds changes nothing. *)
Definition Set_add (s : list string) (x : string) : list string :=
  if existsb (String.eqb x) s then s else (s ++ [x])%list.

(** [Array.from(new Set(values))]: the constructor adds the values one after
    the other. *)
Definition new_Set (values : list string) : list string :=
  fold_left Set_add values [].

(** Lines 94-97: the options of the client selector. *)
Definition clients (initialWorkflows : list Workflow) : list string :=
  "all" :: new_Set (List.map client initialWorkflows).

(** Line 351: the height of a bar of the execution trend,
    [Math.max(14, Math.min(run.durationSeconds * 2.5, 60))]. *)
Definition barHeight (run : Run) : Q :=
  Qmax 14 (Qmin (durationSeconds run * (5 # 2)) 60).

(** Line 352. *)
Definition hasError (run : Run) : bool := (0 <? errors run)%N.

(** Line 371: the caption under a bar. *)
Definition issueLabel (run : Run) : string :=
  if hasError run then JS.toString (Z.of_N (errors run)) +:+ " issue" else "Clean".

Section DetailPane.

(** [String.prototype.toLowerCase]. *)
Variable toLowerCase : string -> string.

(** The time value of [new Date(iso)]. *)
Variable Date_getTime : string -> TimeValue.

(** Lines 232-236: whether a row of the list carries the highlight,
    [selectedWorkflow?.id === workflow.id]. *)
Definition rowHighlighted (initialWorkflows : list Workflow) (st : DashboardState)
  (workflow : Workflow) : bool :=
  match id <$> selectedWorkflow toLowerCase initialWorkflows st with
  | Some selectedId => String.eqb selectedId (id workflow)
  | None => false
  end.

(** Line 273: the empty-list notice is rendered. *)
Definition showsNoMatchNotice (initialWorkflows : list Workflow) (st : DashboardState) : bool :=
  Nat.eqb (length (filteredWorkflows toLowerCase initialWorkflows st)) 0.

(** Lines 316-318: the "Next run" text; an absent or empty [nextRunAt] is
    falsy. *)
Definition nextRunLabel (workflow : Workflow) : Clock string :=
  match nextRunAt workflow with
  | Some iso =>
      if Nat.eqb (String.length iso) 0 then clock_ret "On demand"
      else formatRelative (Date_getTime iso)
  | None => clock_ret "On demand"
  end.

End DetailPane.

(** ** Facts about the built-ins *)

Lemma Math_round_spec (n d k : Z) :
  0 < d -> JS.Math_round n d = k <-> 2 * d * k - d <= 2 * n < 2 * d * k + d.
Proof.
  intros Hd. unfold JS.Math_round. split.
  - intros <-.
    pose proof (Z.mul_div_le (2 * n + d) (2 * d) ltac:(lia)).
    pose proof (Z.mul_succ_div_gt (2 * n + d) (2 * d) ltac:(lia)).
    lia.
  - intros [Hlo Hhi]. symmetry. apply Z.div_unique with (r := 2 * n + d - 2 * d * k); lia.
Qed.

Lemma Math_round_nonneg (n d : Z) : 0 < d -> 0 <= n -> 0 <= JS.Math_round n d.
Proof.
  intros Hd Hn. unfold JS.Math_round. apply Z.div_pos; lia.
Qed.

Lemma round_half_away_nonneg (n d : Z) :
  0 < d -> 0 <= n -> round_half_away n d = JS.Math_round n d.
Proof.
  intros Hd Hn. unfold round_half_away, JS.Math_round.
  destruct (Z.eq_dec n 0) as [-> | Hne].
  - cbn [Z.sgn Z.abs]. rewrite Z.mul_0_l, Z.mul_0_r, Z.add_0_l.
    symmetry. apply Z.div_small. lia.
  - rewrite Z.sgn_pos, Z.abs_eq by lia. lia.
Qed.

Lemma startsWith_spec (s t : string) :
  JS.startsWith s t = true <-> exists post, s = t +:+ post.
Proof.
  revert s. induction t as [| b t IH]; intros [| a s]; cbn.
  - split; [intros _; now exists "" | reflexivity].
  - split; [intros _; now exists (String a s) | reflexivity].
  - split; [discriminate | intros [post H]; discriminate].
  - destruct (Ascii.eqb_spec a b) as [-> | Hne].
    + rewrite IH. split; intros [post H]; exists post.
      * now rewrite H.
      * now injection H.
    + split; [discriminate | intros [post H]; injection H; congruence].
Qed.

Lemma includes_spec (s t : string) :
  JS.includes s t = true <-> exists pre post, s = pre +:+ t +:+ post.
Proof.
  induction s as [| a s IH]; cbn [JS.includes].
  - rewrite orb_false_r, startsWith_spec. split.
    + intros [post H]. now exists "", post.
    + intros [pre [post H]]. destruct pre; [now exists post | discriminate].
  - rewrite orb_true_iff, startsWith_spec, IH. split.
    + intros [[post H] | [pre [post H]]].
      * now exists "", post.
      * exists (String a pre), post. cbn. now rewrite H.
    + intros [pre [post H]]. destruct pre as [| c pre].
      * left. now exists post.
      * right. exists pre, post. cbn in H. now injection H.
Qed.

Lemma WorkflowStatus_eqb_eq (a b : WorkflowStatus) :
  WorkflowStatus_eqb a b = true <-> a = b.
Proof. destruct a, b; cbn; split; congruence. Qed.

Lemma StatusFilter_eqb_eq (a b : StatusFilter) :
  StatusFilter_eqb a b = true <-> a = b.
Proof.
  destruct a as [| s], b as [| s']; cbn; try (split; congruence).
  rewrite WorkflowStatus_eqb_eq. split; congruence.
Qed.

Lemma length_zero_empty (s : string) :
  Nat.eqb (String.length s) 0 = true <-> s = "".
Proof. destruct s; cbn; split; congruence. Qed.

(** ** The filter (lines 99-111) *)

Section FilterFacts.

Variable toLowerCase : string -> string.

Lemma workflowMatches_admitted (st : DashboardState) (w : Workflow) :
  workflowMatches toLowerCase st w = true <-> admitted toLowerCase st w.
Proof.
  unfold workflowMatches, admitted, caseInsensitiveContains.
  rewrite !andb_true_iff, !orb_true_iff, !String.eqb_eq, !StatusFilter_eqb_eq,
    length_zero_empty, !includes_spec.
  tauto.
Qed.

Lemma filteredWorkflows_app (ws1 ws2 : list Workflow) (st : DashboardState) :
  filteredWorkflows toLowerCase (ws1 ++ ws2)%list st
  = (filteredWorkflows toLowerCase ws1 st ++ filteredWorkflows toLowerCase ws2 st)%list.
Proof. unfold filteredWorkflows. apply List.filter_app. Qed.

Lemma filteredWorkflows_cons (w : Workflow) (ws : list Workflow) (st : DashboardState) :
  filteredWorkflows toLowerCase (w :: ws) st
  = if workflowMatches toLowerCase st w
    then w :: filteredWorkflows toLowerCase ws st
    else filteredWorkflows toLowerCase ws st.
Proof. reflexivity. Qed.

Lemma filteredWorkflows_sublist (ws : list Workflow) (st : DashboardState) :
  sublist (filteredWorkflows toLowerCase ws st) ws.
Proof.
  unfold filteredWorkflows. induction ws as [| w ws IH]; cbn.
  - constructor.
  - destruct (workflowMatches toLowerCase st w); now constructor.
Qed.

(** C1: a workflow is in the filtered result exactly when it is in the input
    and satisfies the client, status and search conditions (exact client
    match, case-insensitive substring search on name or client); the result
    is a subsequence of the input, and every occurrence of the input is kept
    or dropped in place, so the relative order is the input's. *)
Theorem filteredWorkflows_spec (ws : list Workflow) (st : DashboardState) :
  (forall w, In w (filteredWorkflows toLowerCase ws st)
             <-> In w ws /\ admitted toLowerCase st w) /\
  sublist (filteredWorkflows toLowerCase ws st) ws /\
  (forall ws1 w ws2, ws = (ws1 ++ w :: ws2)%list ->
     (admitted toLowerCase st w ->
        filteredWorkflows toLowerCase ws st
        = (filteredWorkflows toLowerCase ws1 st
           ++ w :: filteredWorkflows toLowerCase ws2 st)%list) /\
     (~ admitted toLowerCase st w ->
        filteredWorkflows toLowerCase ws st
        = (filteredWorkflows toLowerCase ws1 st
           ++ filteredWorkflows toLowerCase ws2 st)%list)).
Proof.
  split; [| split].
  - intros w. unfold filteredWorkflows.
    rewrite List.filter_In, workflowMatches_admitted. tauto.
  - apply filteredWorkflows_sublist.
  - intros ws1 w ws2 ->. rewrite filteredWorkflows_app, filteredWorkflows_cons.
    split; intros Hw.
    + apply workflowMatches_admitted in Hw. now rewrite Hw.
    + destruct (workflowMatches toLowerCase st w) eqn:E; [| reflexivity].
      apply workflowMatches_admitted in E. contradiction.
Qed.

(** C7: the filtered result is never longer than the input, and the triple
    all / all / empty search returns the input unchanged, whatever the
    stored selection is. *)
Theorem filteredWorkflows_monotone_identity (ws : list Workflow) :
  (forall st, (length (filteredWorkflows toLowerCase ws st) <= length ws)%nat) /\
  (forall selectedId,
     filteredWorkflows toLowerCase ws
       {| clientFilter := "all"; statusFilter := StatusAll;
          searchTerm := ""; selectedWorkflowId := selectedId |} = ws).
Proof.
  split.
  - intros st. apply sublist_length, filteredWorkflows_sublist.
  - intros selectedId. unfold filteredWorkflows.
    induction ws as [| w l IH]; cbn [List.filter]; [reflexivity |].
    replace (workflowMatches toLowerCase _ w) with true by reflexivity.
    now rewrite IH.
Qed.

End FilterFacts.

(** ** The selection resolver (lines 118-123) *)

Lemma find_first {A : Type} (f : A -> bool) (l : list A) (x : A) :
  JS.find f l = Some x ->
  exists pre post,
    l = (pre ++ x :: post)%list /\ f x = true /\ forall y, In y pre -> f y = false.
Proof.
  unfold JS.find. induction l as [| a l IH]; cbn; [discriminate |].
  destruct (f a) eqn:Ea.
  - intros [= ->]. exists [], l. repeat split; [assumption | intros y []].
  - intros H. destruct (IH H) as (pre & post & -> & Hx & Hpre).
    exists (a :: pre), post. repeat split; [assumption |].
    intros y [<- | Hy]; [assumption | now apply Hpre].
Qed.

Lemma find_none_iff {A : Type} (f : A -> bool) (l : list A) :
  JS.find f l = None <-> forall y, In y l -> f y = false.
Proof.
  unfold JS.find. induction l as [| a l IH]; cbn.
  - split; [intros _ y [] | reflexivity].
  - destruct (f a) eqn:Ea.
    + split; [discriminate |]. intros H. specialize (H a (or_introl eq_refl)). congruence.
    + rewrite IH. split.
      * intros H y [<- | Hy]; [assumption | now apply H].
      * intros H y Hy. apply H. now right.
Qed.

Lemma NoDup_map_injective {A B : Type} (f : A -> B) (l : list A) (a b : A) :
  NoDup (List.map f l) -> In a l -> In b l -> f a = f b -> a = b.
Proof.
  induction l as [| c l IH]; cbn; [intros _ [] |].
  intros Hnd Ha Hb Hab. apply NoDup_cons in Hnd as [Hc Hnd].
  rewrite list_elem_of_In in Hc.
  destruct Ha as [<- | Ha], Hb as [<- | Hb].
  - reflexivity.
  - exfalso. apply Hc. rewrite Hab. now apply in_map.
  - exfalso. apply Hc. rewrite <- Hab. now apply in_map.
  - now apply IH.
Qed.

Lemma resolveSelection_found (filtered : list Workflow) (selectedId : string) (w : Workflow) :
  In w filtered -> id w = selectedId ->
  exists w' pre post,
    resolveSelection filtered selectedId = Some w' /\
    id w' = selectedId /\
    filtered = (pre ++ w' :: post)%list /\
    forall x, In x pre -> id x <> selectedId.
Proof.
  intros Hin Hid. unfold resolveSelection.
  destruct (JS.find (fun workflow => String.eqb (id workflow) selectedId) filtered)
    as [w' |] eqn:Efind.
  - destruct (find_first _ _ _ Efind) as (pre & post & Hsplit & Hw' & Hpre).
    exists w', pre, post. cbn. repeat split; try assumption.
    + now apply String.eqb_eq.
    + intros x Hx. apply String.eqb_neq. now apply Hpre.
  - exfalso. rewrite find_none_iff in Efind. specialize (Efind w Hin). cbn in Efind.
    apply String.eqb_neq in Efind. contradiction.
Qed.

Lemma resolveSelection_fallback (filtered : list Workflow) (selectedId : string) :
  (forall w, In w filtered -> id w <> selectedId) ->
  resolveSelection filtered selectedId = filtered !! 0%nat.
Proof.
  intros Hno. unfold resolveSelection.
  replace (JS.find _ filtered) with (@None Workflow).
  - cbn. now destruct (filtered !! 0%nat).
  - symmetry. apply find_none_iff. intros y Hy. apply String.eqb_neq. now apply Hno.
Qed.

Lemma resolveSelection_unique (filtered : list Workflow) (selectedId : string) (w : Workflow) :
  NoDup (List.map id filtered) -> In w filtered -> id w = selectedId ->
  resolveSelection filtered selectedId = Some w.
Proof.
  intros Hnd Hin Hid.
  destruct (resolveSelection_found filtered selectedId w Hin Hid)
    as (w' & pre & post & -> & Hid' & Hsplit & _).
  f_equal. apply (NoDup_map_injective id filtered); try assumption; [| congruence].
  rewrite Hsplit. apply in_elt.
Qed.

(** C2: when some workflow of the filtered sequence carries the selected id,
    the resolver returns the first workflow with that id (the workflow itself
    when ids are unique); when none does it returns the first element of a
    non-empty sequence and null for the empty one.  The resolver is a total
    function into an optional workflow: there is no error outcome. *)
Theorem resolveSelection_spec (filtered : list Workflow) (selectedId : string) :
  (forall w, In w filtered -> id w = selectedId ->
     exists w' pre post,
       resolveSelection filtered selectedId = Some w' /\
       id w' = selectedId /\
       filtered = (pre ++ w' :: post)%list /\
       forall x, In x pre -> id x <> selectedId) /\
  (forall w, NoDup (List.map id filtered) -> In w filtered -> id w = selectedId ->
     resolveSelection filtered selectedId = Some w) /\
  ((forall w, In w filtered -> id w <> selectedId) ->
     (forall first rest, filtered = first :: rest ->
        resolveSelection filtered selectedId = Some first) /\
     (filtered = [] -> resolveSelection filtered selectedId = None)).
Proof.
  split; [| split].
  - intros w. apply resolveSelection_found.
  - intros w. apply resolveSelection_unique.
  - intros Hno. rewrite (resolveSelection_fallback _ _ Hno).
    split; [intros first rest -> | intros ->]; reflexivity.
Qed.

(** ** The state cells (lines 87-92) and their setters *)

(** C10: a fresh component starts with client filter "all", status filter
    "all" and an empty search term, and its stored selection is the id of the
    first workflow of a non-empty collection (the empty string when there is
    no workflow). *)
Theorem initialState_defaults :
  (forall ws,
     clientFilter (initialState ws) = "all" /\
     statusFilter (initialState ws) = StatusAll /\
     searchTerm (initialState ws) = "") /\
  (forall first rest, selectedWorkflowId (initialState (first :: rest)) = id first) /\
  selectedWorkflowId (initialState []) = "".
Proof. repeat split. Qed.

Lemma dispatch_filter_keeps_selection (st : DashboardState) (a : Action) :
  isFilterAction a = true ->
  selectedWorkflowId (dispatch st a) = selectedWorkflowId st.
Proof. destruct a; cbn; [reflexivity .. | discriminate]. Qed.

Lemma dispatchAll_filter_keeps_selection (acts : list Action) (st : DashboardState) :
  forallb isFilterAction acts = true ->
  selectedWorkflowId (dispatchAll st acts) = selectedWorkflowId st.
Proof.
  unfold dispatchAll. revert st.
  induction acts as [| a acts IH]; intros st; cbn [fold_left forallb]; [reflexivity |].
  rewrite andb_true_iff. intros [Ha Hacts].
  rewrite (IH _ Hacts). now apply dispatch_filter_keeps_selection.
Qed.

Lemma sublist_map {A B : Type} (f : A -> B) (l k : list A) :
  sublist l k -> sublist (List.map f l) (List.map f k).
Proof. induction 1; cbn; now constructor. Qed.

Section Stickiness.

Variable toLowerCase : string -> string.

(** C9: a filter action leaves the stored selection unchanged, only a
    selection action can change it, and so after any run of filter actions
    the originally selected workflow is the resolved selection as soon as
    the current filters admit it. *)
Theorem selection_sticky :
  (forall st a, isFilterAction a = true ->
     selectedWorkflowId (dispatch st a) = selectedWorkflowId st) /\
  (forall st a, selectedWorkflowId (dispatch st a) <> selectedWorkflowId st ->
     exists workflowId, a = SetSelectedWorkflowId workflowId) /\
  (forall st acts, forallb isFilterAction acts = true ->
     selectedWorkflowId (dispatchAll st acts) = selectedWorkflowId st) /\
  (forall ws st acts w,
     NoDup (List.map id ws) ->
     forallb isFilterAction acts = true ->
     id w = selectedWorkflowId st ->
     In w (filteredWorkflows toLowerCase ws (dispatchAll st acts)) ->
     selectedWorkflow toLowerCase ws (dispatchAll st acts) = Some w).
Proof.
  split; [| split; [| split]].
  - apply dispatch_filter_keeps_selection.
  - intros st a Hne. destruct a as [v | v | v | v]; cbn in Hne; try congruence.
    now exists v.
  - intros st acts. apply dispatchAll_filter_keeps_selection.
  - intros ws st acts w Hnd Hacts Hid Hin. unfold selectedWorkflow.
    rewrite (dispatchAll_filter_keeps_selection _ _ Hacts).
    apply resolveSelection_unique; try assumption.
    eapply sublist_NoDup; [exact Hnd | apply sublist_map, filteredWorkflows_sublist].
Qed.

End Stickiness.

(** ** The summary (lines 113-116) *)

Lemma js_div_count (a : Q) (n : nat) :
  js_div a (NtoQ (N.of_nat (S n))) = Finite (a / NtoQ (N.of_nat (S n))).
Proof.
  unfold js_div.
  destruct (Qeq_bool (NtoQ (N.of_nat (S n))) 0) eqn:E; [| reflexivity].
  apply Qeq_bool_iff in E. unfold Qeq, NtoQ, inject_Z in E. cbn [Qnum Qden] in E. lia.
Qed.

Lemma meanOrZero_finite (l : list Q) : exists q, meanOrZero l = Finite q.
Proof.
  destruct l as [| x l].
  - now exists 0%Q.
  - eexists. unfold meanOrZero. cbn [length]. apply js_div_count.
Qed.

Lemma countStatus_total (l : list Workflow) :
  (countStatus healthy l + countStatus warning l
   + countStatus failed l + countStatus paused l)%N = N.of_nat (length l).
Proof.
  unfold countStatus. induction l as [| w l IH]; [reflexivity |].
  cbn [List.filter length]. destruct (status w); cbn [WorkflowStatus_eqb length]; lia.
Qed.

(** C6: the summary of the empty sequence has every count equal to 0 and both
    averages equal to the number 0; and on every input both averages are
    finite numbers, never NaN: no division by a zero count takes place. *)
Theorem computeSummaryMetrics_empty :
  computeSummaryMetrics []
  = {| totalWorkflows := 0; healthyCount := 0; warningCount := 0; failedCount := 0;
       pausedCount := 0; totalRunsToday := 0;
       avgSuccessRate := Finite 0; averageDurationSeconds := Finite 0 |} /\
  (forall ws, exists a d,
     avgSuccessRate (computeSummaryMetrics ws) = Finite a /\
     averageDurationSeconds (computeSummaryMetrics ws) = Finite d).
Proof.
  split; [reflexivity |].
  intros ws. cbn [computeSummaryMetrics avgSuccessRate averageDurationSeconds].
  destruct (meanOrZero_finite (List.map successRate ws)) as [a Ha].
  destruct (meanOrZero_finite
              (List.map durationSeconds (List.concat (List.map runHistory ws)))) as [d Hd].
  now exists a, d.
Qed.

Section SummaryWiring.

Variable toLowerCase : string -> string.

(** C8: for every filter state the summary shown is the aggregate of the
    filtered sequence and of nothing else: it counts exactly the workflows
    the filter returned, two filter states with the same filtered sequence
    show the same summary, and the aggregator counts every workflow it is
    handed, splitting them by status without dropping any. *)
Theorem summary_over_filtered (ws : list Workflow) (st : DashboardState) :
  summary toLowerCase ws st
  = computeSummaryMetrics (filteredWorkflows toLowerCase ws st) /\
  totalWorkflows (summary toLowerCase ws st)
  = N.of_nat (length (filteredWorkflows toLowerCase ws st)) /\
  (forall st',
     filteredWorkflows toLowerCase ws st' = filteredWorkflows toLowerCase ws st ->
     summary toLowerCase ws st' = summary toLowerCase ws st) /\
  (forall l,
     totalWorkflows (computeSummaryMetrics l) = N.of_nat (length l) /\
     (healthyCount (computeSummaryMetrics l) + warningCount (computeSummaryMetrics l)
      + failedCount (computeSummaryMetrics l) + pausedCount (computeSummaryMetrics l))%N
     = totalWorkflows (computeSummaryMetrics l)).
Proof.
  repeat split.
  - intros st' H. unfold summary. now rewrite H.
  - apply countStatus_total.
Qed.

End SummaryWiring.

(** ** The relative-time formatter (lines 60-80) *)

Lemma formatRelative_unfold (then_ : TimeValue) (wall : Z) :
  formatRelative then_ wall = formatRelativeAt wall then_.
Proof. reflexivity. Qed.

Lemma formatRelativeAt_past (now t : Z) :
  0 <= now - t -> formatRelativeAt now (Some t) = formatPast (now - t).
Proof.
  intros H. unfold formatRelativeAt. cbv zeta.
  destruct (Z.ltb_spec (now - t) 0); [lia | reflexivity].
Qed.

Lemma formatRelativeAt_future (now t : Z) :
  now - t < 0 -> formatRelativeAt now (Some t) = formatFuture (now - t).
Proof.
  intros H. unfold formatRelativeAt. cbv zeta.
  destruct (Z.ltb_spec (now - t) 0); [reflexivity | lia].
Qed.

Lemma formatRelativeAt_shift (now t delta : Z) :
  now - t = delta -> formatRelativeAt now (Some t) = formatRelativeAt delta (Some 0).
Proof.
  intros <-. unfold formatRelativeAt. now rewrite Z.sub_0_r.
Qed.

(** The bounds that [Math.round] puts on its argument, for a constant
    divisor. *)
Ltac round_bounds n d :=
  let H := fresh "Hround" in
  pose proof (proj1 (Math_round_spec n d (JS.Math_round n d) ltac:(lia)) eq_refl) as H.

Ltac ltb_cases :=
  repeat match goal with
         | |- context [ (?a <? ?b) ] => destruct (Z.ltb_spec a b); try lia
         end.

Lemma formatPast_tiers (diffMs : Z) :
  let minutes := JS.Math_round diffMs 60000 in
  let hours := JS.Math_round minutes 60 in
  (0 <= diffMs < 30000 -> formatPast diffMs = "Now") /\
  (30000 <= diffMs < 3570000 -> formatPast diffMs = JS.toString minutes +:+ " min ago") /\
  (3570000 <= diffMs < 84570000 -> formatPast diffMs = JS.toString hours +:+ " hr ago") /\
  (84570000 <= diffMs ->
     formatPast diffMs = JS.toString (JS.Math_round hours 24) +:+ "d ago").
Proof.
  intros minutes hours. unfold formatPast. fold minutes. cbv zeta. fold hours.
  round_bounds diffMs 60000. fold minutes in Hround.
  round_bounds minutes 60. fold hours in Hround0.
  repeat split; intros Hd; ltb_cases; reflexivity.
Qed.

Lemma formatFuture_tiers (diffMs : Z) :
  let futureMinutes := - JS.Math_round diffMs 60000 in
  let futureHours := JS.Math_round futureMinutes 60 in
  (-30000 <= diffMs < 0 -> formatFuture diffMs = "In moments") /\
  (-3570000 <= diffMs < -30000 ->
     formatFuture diffMs = "In " +:+ JS.toString futureMinutes +:+ " min") /\
  (-84570000 <= diffMs < -3570000 ->
     formatFuture diffMs = "In " +:+ JS.toString futureHours +:+ " hr") /\
  (diffMs < -84570000 ->
     formatFuture diffMs = "In " +:+ JS.toString (JS.Math_round futureHours 24) +:+ "d").
Proof.
  intros futureMinutes futureHours. unfold formatFuture, JS.Math_abs.
  round_bounds diffMs 60000.
  assert (Habs : diffMs < 0 -> Z.abs (JS.Math_round diffMs 60000) = futureMinutes)
    by (unfold futureMinutes; lia).
  repeat split; intros Hd; rewrite Habs by lia; cbv zeta; fold futureHours;
    round_bounds futureMinutes 60; fold futureHours in Hround0;
    unfold futureMinutes in *; ltb_cases; reflexivity.
Qed.

Ltac label_at delta :=
  rewrite formatRelative_unfold;
  rewrite (formatRelativeAt_shift _ _ delta) by lia;
  vm_compute; reflexivity.

(** C3, as amended: with [now] the clock reading taken by the formatter, a
    target 59 s back is labelled "1 min ago" (the delta is rounded to the
    nearest minute before the test against 1, so "Now" covers deltas below
    30 s, such as 29 s); 60 s back is "1 min ago", 3600 s back is "1 hr ago"
    and 30 s ahead is "In moments". *)
Theorem formatRelative_boundaries (now : Z) :
  formatRelative (Some (now - 59000)) now = "1 min ago" /\
  formatRelative (Some (now - 29000)) now = "Now" /\
  formatRelative (Some (now - 60000)) now = "1 min ago" /\
  formatRelative (Some (now - 3600000)) now = "1 hr ago" /\
  formatRelative (Some (now + 30000)) now = "In moments".
Proof.
  repeat split.
  - label_at 59000.
  - label_at 29000.
  - label_at 60000.
  - label_at 3600000.
  - label_at (-30000).
Qed.

(** C3 as stated fails: 59 s after the target the label is "1 min ago", not
    "Now". *)
Lemma formatRelative_59s_not_Now :
  formatRelative (Some (1000000 - 59000)) 1000000 = "1 min ago" /\
  formatRelative (Some (1000000 - 59000)) 1000000 <> "Now".
Proof. split; [reflexivity | discriminate]. Qed.

(** C4, as amended: the formatter receives the target alone and obtains the
    reference instant from the clock when it runs; its label is the one the
    body computes from that reading and the target, it depends on the two
    only through their difference, and an Invalid Date is labelled the same
    at every reading. *)
Theorem formatRelative_reads_clock :
  (forall then_ wall, formatRelative then_ wall = formatRelativeAt wall then_) /\
  (forall t1 wall1 t2 wall2,
     wall1 - t1 = wall2 - t2 ->
     formatRelative (Some t1) wall1 = formatRelative (Some t2) wall2) /\
  (forall wall, formatRelative None wall = "NaNd ago").
Proof.
  repeat split.
  intros t1 wall1 t2 wall2 H. rewrite !formatRelative_unfold.
  rewrite (formatRelativeAt_shift wall1 t1 (wall1 - t1)) by reflexivity.
  rewrite (formatRelativeAt_shift wall2 t2 (wall1 - t1)) by (symmetry; exact H).
  reflexivity.
Qed.

Lemma formatRelative_reads_clock_witness :
  1000 - 400 = 5000 - 4400 /\
  formatRelative (Some 400) 1000 = formatRelative (Some 4400) 5000.
Proof.
  split; [reflexivity |].
  apply (proj1 (proj2 formatRelative_reads_clock) 400 1000 4400 5000). reflexivity.
Defined.

(** C4 as stated fails: the same target formatted at two clock readings an
    hour apart gets two different labels. *)
Lemma formatRelative_depends_on_clock :
  formatRelative (Some 0) 0 = "Now" /\
  formatRelative (Some 0) 3600000 = "1 hr ago" /\
  formatRelative (Some 0) 0 <> formatRelative (Some 0) 3600000.
Proof. repeat split. discriminate. Qed.

Lemma spec_relativeLabel_half_away_past (now t : Z) :
  0 <= now - t ->
  spec_relativeLabel round_half_away now t = formatPast (now - t).
Proof.
  intros H. unfold spec_relativeLabel, formatPast.
  rewrite (round_half_away_nonneg (now - t) 60000) by lia.
  pose proof (Math_round_nonneg (now - t) 60000 ltac:(lia) H) as Hm.
  rewrite (Z.abs_eq _ Hm).
  rewrite (round_half_away_nonneg _ 60) by lia.
  pose proof (Math_round_nonneg _ 60 ltac:(lia) Hm) as Hh.
  rewrite (round_half_away_nonneg _ 24) by lia.
  cbv zeta. destruct (Z.ltb_spec (now - t) 0); [lia | reflexivity].
Qed.

(** C5, as amended: every rounding is [Math.round], the nearest integer with
    a tie going towards +infinity.  The minute tier rounds the signed delta,
    so a target at most 30 s ahead is "In moments" while a target 30 s back
    is already "1 min ago"; the hour and day tiers round the non-negative
    value one tier below.  A coarser unit is used once the rounded value of
    the current unit reaches 60 minutes or 24 hours, so exactly 60 minutes is
    "1 hr ago".  For past targets this is rounding half away from zero at
    every tier; for future targets a half-minute tie goes to the smaller
    magnitude (90 s ahead is "In 1 min", 90 s back is "2 min ago") while a
    half-hour tie goes up on both sides. *)
Theorem formatRelative_rounding (now t : Z) :
  let diffMs := now - t in
  let label := formatRelative (Some t) now in
  let minutes := JS.Math_round diffMs 60000 in
  (forall n d k, 0 < d ->
     JS.Math_round n d = k <-> 2 * d * k - d <= 2 * n < 2 * d * k + d) /\
  (0 <= diffMs < 30000 -> label = "Now") /\
  (30000 <= diffMs < 3570000 -> label = JS.toString minutes +:+ " min ago") /\
  (3570000 <= diffMs < 84570000 ->
     label = JS.toString (JS.Math_round minutes 60) +:+ " hr ago") /\
  (84570000 <= diffMs ->
     label = JS.toString (JS.Math_round (JS.Math_round minutes 60) 24) +:+ "d ago") /\
  (-30000 <= diffMs < 0 -> label = "In moments") /\
  (-3570000 <= diffMs < -30000 -> label = "In " +:+ JS.toString (- minutes) +:+ " min") /\
  (-84570000 <= diffMs < -3570000 ->
     label = "In " +:+ JS.toString (JS.Math_round (- minutes) 60) +:+ " hr") /\
  (diffMs < -84570000 ->
     label = "In " +:+ JS.toString (JS.Math_round (JS.Math_round (- minutes) 60) 24) +:+ "d") /\
  (0 <= diffMs -> label = spec_relativeLabel round_half_away now t) /\
  formatRelative (Some (now - 3600000)) now = "1 hr ago" /\
  formatRelative (Some (now - 90000)) now = "2 min ago" /\
  formatRelative (Some (now + 90000)) now = "In 1 min" /\
  formatRelative (Some (now - 5400000)) now = "2 hr ago" /\
  formatRelative (Some (now + 5400000)) now = "In 2 hr".
Proof.
  intros diffMs label minutes. subst label. rewrite formatRelative_unfold.
  destruct (formatPast_tiers diffMs) as (P1 & P2 & P3 & P4).
  destruct (formatFuture_tiers diffMs) as (F1 & F2 & F3 & F4).
  cbv zeta in P1, P2, P3, P4, F1, F2, F3, F4. fold minutes in P2, P3, P4, F2, F3, F4.
  split; [intros n d k; apply Math_round_spec |].
  repeat match goal with
         | |- _ /\ _ => split
         end.
  - intros H. rewrite formatRelativeAt_past by (fold diffMs; lia). now apply P1.
  - intros H. rewrite formatRelativeAt_past by (fold diffMs; lia). now apply P2.
  - intros H. rewrite formatRelativeAt_past by (fold diffMs; lia). now apply P3.
  - intros H. rewrite formatRelativeAt_past by (fold diffMs; lia). now apply P4.
  - intros H. rewrite formatRelativeAt_future by (fold diffMs; lia). now apply F1.
  - intros H. rewrite formatRelativeAt_future by (fold diffMs; lia). now apply F2.
  - intros H. rewrite formatRelativeAt_future by (fold diffMs; lia). now apply F3.
  - intros H. rewrite formatRelativeAt_future by (fold diffMs; lia). now apply F4.
  - intros H. rewrite formatRelativeAt_past by (fold diffMs; lia).
    symmetry. now apply spec_relativeLabel_half_away_past.
  - label_at 3600000.
  - label_at 90000.
  - label_at (-90000).
  - label_at 5400000.
  - label_at (-5400000).
Qed.

(** C5 as stated fails: the labels are neither those of rounding half away
    from zero at every tier (90 s ahead would be "In 2 min") nor those of
    rounding half to even (150 s back would be "2 min ago"). *)
Lemma formatRelative_not_one_named_rule :
  ~ ((forall now t, formatRelative (Some t) now = spec_relativeLabel round_half_away now t)
     \/ (forall now t, formatRelative (Some t) now = spec_relativeLabel round_half_even now t)).
Proof.
  intros [H | H].
  - specialize (H 0 90000). vm_compute in H. discriminate.
  - specialize (H 150000 0). vm_compute in H. discriminate.
Qed.

(** ** The theorems at work on the sample data *)

Lemma sample_ids_distinct : NoDup (List.map id sampleWorkflows).
Proof. apply (bool_decide_unpack _). vm_compute. exact I. Qed.

Lemma filteredWorkflows_spec_witness :
  (admitted JS.ascii_toLowerCase stateClientA wfBilling /\
   filteredWorkflows JS.ascii_toLowerCase sampleWorkflows stateClientA
   = (filteredWorkflows JS.ascii_toLowerCase [wfSync] stateClientA
      ++ wfBilling :: filteredWorkflows JS.ascii_toLowerCase [wfReport] stateClientA)%list) /\
  (~ admitted JS.ascii_toLowerCase stateClientA wfReport /\
   filteredWorkflows JS.ascii_toLowerCase sampleWorkflows stateClientA
   = (filteredWorkflows JS.ascii_toLowerCase [wfSync; wfBilling] stateClientA
      ++ filteredWorkflows JS.ascii_toLowerCase [] stateClientA)%list).
Proof.
  assert (Hyes : admitted JS.ascii_toLowerCase stateClientA wfBilling)
    by (apply workflowMatches_admitted; reflexivity).
  assert (Hno : ~ admitted JS.ascii_toLowerCase stateClientA wfReport)
    by (intros H; apply workflowMatches_admitted in H; discriminate).
  destruct (filteredWorkflows_spec JS.ascii_toLowerCase sampleWorkflows stateClientA)
    as (_ & _ & Hocc).
  split; (split; [assumption |]).
  - apply (proj1 (Hocc [wfSync] wfBilling [wfReport] eq_refl) Hyes).
  - apply (proj2 (Hocc [wfSync; wfBilling] wfReport [] eq_refl) Hno).
Defined.

Lemma resolveSelection_spec_witness :
  resolveSelection sampleWorkflows "wf-2" = Some wfBilling /\
  resolveSelection sampleWorkflows "nonexistent-id" = Some wfSync /\
  resolveSelection [] "nonexistent-id" = None.
Proof.
  split; [| split].
  - apply (proj1 (proj2 (resolveSelection_spec sampleWorkflows "wf-2")) wfBilling).
    + exact sample_ids_distinct.
    + right. left. reflexivity.
    + reflexivity.
  - apply (proj1 (proj2 (proj2 (resolveSelection_spec sampleWorkflows "nonexistent-id"))
                   ltac:(intros w [<- | [<- | [<- | []]]]; discriminate))
             wfSync [wfBilling; wfReport] eq_refl).
  - apply (proj2 (proj2 (proj2 (resolveSelection_spec [] "nonexistent-id"))
                   ltac:(intros w []))
             eq_refl).
Defined.

Lemma selection_sticky_witness :
  selectedWorkflow JS.ascii_toLowerCase sampleWorkflows
    (dispatchAll stateThirdSelected [SetClientFilter "A"]) = Some wfSync /\
  selectedWorkflowId (dispatchAll stateThirdSelected [SetClientFilter "A"; SetClientFilter "all"])
  = "wf-3" /\
  selectedWorkflow JS.ascii_toLowerCase sampleWorkflows
    (dispatchAll stateThirdSelected [SetClientFilter "A"; SetClientFilter "all"])
  = Some wfReport.
Proof.
  destruct (selection_sticky JS.ascii_toLowerCase) as (_ & _ & Hkeep & Hback).
  split; [reflexivity | split].
  - apply (Hkeep stateThirdSelected [SetClientFilter "A"; SetClientFilter "all"] eq_refl).
  - apply (Hback sampleWorkflows stateThirdSelected
             [SetClientFilter "A"; SetClientFilter "all"] wfReport
             sample_ids_distinct eq_refl eq_refl).
    right. right. left. reflexivity.
Defined.

Lemma summary_over_filtered_witness :
  filteredWorkflows JS.ascii_toLowerCase sampleWorkflows stateSearchN
  = filteredWorkflows JS.ascii_toLowerCase sampleWorkflows stateClientA /\
  summary JS.ascii_toLowerCase sampleWorkflows stateSearchN
  = summary JS.ascii_toLowerCase sampleWorkflows stateClientA /\
  totalWorkflows (summary JS.ascii_toLowerCase sampleWorkflows stateClientA) = 2%N.
Proof.
  destruct (summary_over_filtered JS.ascii_toLowerCase sampleWorkflows stateClientA)
    as (_ & Htotal & Hsame & _).
  split; [reflexivity | split].
  - apply (Hsame stateSearchN eq_refl).
  - rewrite Htotal. reflexivity.
Defined.

Lemma formatRelative_rounding_witness :
  (JS.Math_round 150000 60000 = 3) /\
  formatRelative (Some 0) 29999 = "Now" /\
  formatRelative (Some 0) 150000 = "3 min ago" /\
  formatRelative (Some 0) 3570000 = "1 hr ago" /\
  formatRelative (Some 0) 84570000 = "1d ago" /\
  formatRelative (Some 30000) 0 = "In moments" /\
  formatRelative (Some 3570000) 0 = "In 59 min" /\
  formatRelative (Some 84570000) 0 = "In 23 hr" /\
  formatRelative (Some 84570001) 0 = "In 1d" /\
  formatRelative (Some 0) 150000 = spec_relativeLabel round_half_away 150000 0.
Proof.
  repeat match goal with
         | |- _ /\ _ => split
         end.
  - apply (proj1 (formatRelative_rounding 0 0) 150000 60000 3); lia.
  - destruct (formatRelative_rounding 29999 0) as (_ & H & _). apply H. lia.
  - destruct (formatRelative_rounding 150000 0) as (_ & _ & H & _). apply H. lia.
  - destruct (formatRelative_rounding 3570000 0) as (_ & _ & _ & H & _). apply H. lia.
  - destruct (formatRelative_rounding 84570000 0) as (_ & _ & _ & _ & H & _). apply H. lia.
  - destruct (formatRelative_rounding 0 30000) as (_ & _ & _ & _ & _ & H & _). apply H. lia.
  - destruct (formatRelative_rounding 0 3570000) as (_ & _ & _ & _ & _ & _ & H & _).
    apply H. lia.
  - destruct (formatRelative_rounding 0 84570000) as (_ & _ & _ & _ & _ & _ & _ & H & _).
    apply H. lia.
  - destruct (formatRelative_rounding 0 84570001) as (_ & _ & _ & _ & _ & _ & _ & _ & H & _).
    apply H. lia.
  - destruct (formatRelative_rounding 150000 0) as (_ & _ & _ & _ & _ & _ & _ & _ & _ & H & _).
    apply H. lia.
Defined.

(** The scenarios of the specification, run on the sample data. *)

Example filter_by_client :
  filteredWorkflows JS.ascii_toLowerCase sampleWorkflows stateClientA = [wfSync; wfBilling].
Proof. reflexivity. Qed.

Example search_is_case_insensitive :
  filteredWorkflows JS.ascii_toLowerCase sampleWorkflows
    {| clientFilter := "all"; statusFilter := StatusAll; searchTerm := "ACME";
       selectedWorkflowId := "" |} = [wfSync].
Proof. reflexivity. Qed.

Example average_duration_of_two_runs :
  exists q, averageDurationSeconds (computeSummaryMetrics [wfSync]) = Finite q /\ (q == 15)%Q.
Proof. eexists. split; reflexivity. Qed.

Example initial_selection_resolves_to_first :
  selectedWorkflow JS.ascii_toLowerCase sampleWorkflows (initialState sampleWorkflows)
  = Some wfSync.
Proof. reflexivity. Qed.


(** ** Further facts: how the filter composes *)

Section FilterComposition.

Variable toLowerCase : string -> string.

Lemma filteredWorkflows_all (ws : list Workflow) (selectedId : string) :
  filteredWorkflows toLowerCase ws
    {| clientFilter := "all"; statusFilter := StatusAll;
       searchTerm := ""; selectedWorkflowId := selectedId |} = ws.
Proof.
  unfold filteredWorkflows. induction ws as [| w l IH]; cbn [List.filter]; [reflexivity |].
  replace (workflowMatches toLowerCase _ w) with true by reflexivity.
  now rewrite IH.
Qed.

Lemma filter_twice {A : Type} (f g : A -> bool) (l : list A) :
  List.filter g (List.filter f l) = List.filter (fun x => f x && g x) l.
Proof.
  induction l as [| x l IH]; cbn; [reflexivity |].
  destruct (f x); cbn; [destruct (g x) |]; now rewrite IH.
Qed.

(** Filtering an already filtered list under a second filter state gives the
    same list whichever of the two states is applied first, and filtering
    twice under one state changes nothing more. *)
Theorem filteredWorkflows_compose (ws : list Workflow) (st1 st2 : DashboardState) :
  filteredWorkflows toLowerCase (filteredWorkflows toLowerCase ws st1) st2
  = filteredWorkflows toLowerCase (filteredWorkflows toLowerCase ws st2) st1 /\
  filteredWorkflows toLowerCase (filteredWorkflows toLowerCase ws st1) st1
  = filteredWorkflows toLowerCase ws st1.
Proof.
  unfold filteredWorkflows. rewrite !filter_twice. split.
  - apply List.filter_ext. intros w. apply andb_comm.
  - apply List.filter_ext. intros w. apply andb_diag.
Qed.

Lemma workflowMatches_status (st : DashboardState) (f : StatusFilter) (w : Workflow) :
  workflowMatches toLowerCase (dispatch st (SetStatusFilter f)) w
  = (String.eqb (clientFilter st) "all" || String.eqb (client w) (clientFilter st))
    && (StatusFilter_eqb f StatusAll || StatusFilter_eqb (StatusIs (status w)) f)
    && (Nat.eqb (String.length (searchTerm st)) 0
        || JS.includes (toLowerCase (name w)) (toLowerCase (searchTerm st))
        || JS.includes (toLowerCase (client w)) (toLowerCase (searchTerm st))).
Proof. reflexivity. Qed.

(** Whatever the client filter and the search term are, the workflows listed
    under the status button "All" are as many as those listed under the four
    status buttons together. *)
Theorem filteredWorkflows_status_partition (ws : list Workflow) (st : DashboardState) :
  length (filteredWorkflows toLowerCase ws (dispatch st (SetStatusFilter StatusAll)))
  = (length (filteredWorkflows toLowerCase ws (dispatch st (SetStatusFilter (StatusIs healthy))))
     + length (filteredWorkflows toLowerCase ws (dispatch st (SetStatusFilter (StatusIs warning))))
     + length (filteredWorkflows toLowerCase ws (dispatch st (SetStatusFilter (StatusIs failed))))
     + length (filteredWorkflows toLowerCase ws (dispatch st (SetStatusFilter (StatusIs paused)))))%nat.
Proof.
  induction ws as [| w l IH]; [reflexivity |].
  rewrite !filteredWorkflows_cons, !workflowMatches_status.
  destruct (String.eqb (clientFilter st) "all" || String.eqb (client w) (clientFilter st));
    destruct (Nat.eqb (String.length (searchTerm st)) 0
              || JS.includes (toLowerCase (name w)) (toLowerCase (searchTerm st))
              || JS.includes (toLowerCase (client w)) (toLowerCase (searchTerm st)));
    destruct (status w);
    cbn [StatusFilter_eqb WorkflowStatus_eqb andb orb length]; lia.
Qed.

End FilterComposition.

(** ** Further facts: the resolved selection and the list *)

Lemma resolveSelection_member (filtered : list Workflow) (selectedId : string) (w : Workflow) :
  resolveSelection filtered selectedId = Some w -> In w filtered.
Proof.
  unfold resolveSelection.
  destruct (JS.find (fun workflow => String.eqb (id workflow) selectedId) filtered)
    as [w' |] eqn:Efind; cbn.
  - intros [= <-]. destruct (find_first _ _ _ Efind) as (pre & post & -> & _).
    apply in_elt.
  - destruct filtered as [| first rest]; cbn; [discriminate |].
    intros [= <-]. now left.
Qed.

Lemma resolveSelection_none (filtered : list Workflow) (selectedId : string) :
  resolveSelection filtered selectedId = None <-> filtered = [].
Proof.
  split; [| intros ->; reflexivity].
  unfold resolveSelection.
  destruct (JS.find (fun workflow => String.eqb (id workflow) selectedId) filtered); cbn;
    [discriminate |].
  destruct filtered; [reflexivity | discriminate].
Qed.

Lemma filter_none {A : Type} (f : A -> bool) (l : list A) :
  (forall x, In x l -> f x = false) -> List.filter f l = [].
Proof.
  induction l as [| a l IH]; cbn; [reflexivity |].
  intros H. rewrite (H a (or_introl eq_refl)). apply IH. intros x Hx. apply H. now right.
Qed.

Lemma filter_same_key {A : Type} (f : A -> string) (l : list A) (w : A) :
  NoDup (List.map f l) -> In w l ->
  List.filter (fun x => String.eqb (f w) (f x)) l = [w].
Proof.
  induction l as [| a l IH]; cbn [List.map List.filter]; [intros _ [] |].
  intros Hnd Hin. apply NoDup_cons in Hnd as [Ha Hnd]. rewrite list_elem_of_In in Ha.
  destruct Hin as [<- | Hin].
  - rewrite String.eqb_refl. f_equal. apply filter_none.
    intros x Hx. apply String.eqb_neq. intros Heq. apply Ha. rewrite Heq. now apply in_map.
  - replace (String.eqb (f w) (f a)) with false; [now apply IH |].
    symmetry. apply String.eqb_neq. intros Heq. apply Ha. rewrite <- Heq. now apply in_map.
Qed.

Lemma filtered_ids_distinct (toLowerCase : string -> string) (ws : list Workflow)
  (st : DashboardState) :
  NoDup (List.map id ws) -> NoDup (List.map id (filteredWorkflows toLowerCase ws st)).
Proof.
  intros Hnd. eapply sublist_NoDup; [exact Hnd | apply sublist_map, filteredWorkflows_sublist].
Qed.

Section SelectionAndList.

Variable toLowerCase : string -> string.

(** The workflow shown in the detail pane is always one of the listed
    workflows, so it satisfies the current filters; the pane has no workflow
    exactly when the list is empty, which is when the empty-list notice is
    rendered. *)
Theorem selectedWorkflow_listed (ws : list Workflow) (st : DashboardState) :
  (forall w, selectedWorkflow toLowerCase ws st = Some w ->
     In w (filteredWorkflows toLowerCase ws st) /\
     workflowMatches toLowerCase st w = true) /\
  (selectedWorkflow toLowerCase ws st = None
   <-> filteredWorkflows toLowerCase ws st = []) /\
  (selectedWorkflow toLowerCase ws st = None
   <-> showsNoMatchNotice toLowerCase ws st = true).
Proof.
  unfold selectedWorkflow, showsNoMatchNotice. split; [| split].
  - intros w H. apply resolveSelection_member in H. split; [exact H |].
    unfold filteredWorkflows in H. now apply List.filter_In in H.
  - apply resolveSelection_none.
  - rewrite resolveSelection_none, Nat.eqb_eq. symmetry. apply length_zero_iff_nil.
Qed.

(** When the ids of the collection are distinct, a click on a listed row
    leaves the list as it is and makes that row's workflow the one shown in
    the detail pane. *)
Theorem click_selects_row (ws : list Workflow) (st : DashboardState) (w : Workflow) :
  NoDup (List.map id ws) ->
  In w (filteredWorkflows toLowerCase ws st) ->
  filteredWorkflows toLowerCase ws (dispatch st (SetSelectedWorkflowId (id w)))
  = filteredWorkflows toLowerCase ws st /\
  selectedWorkflow toLowerCase ws (dispatch st (SetSelectedWorkflowId (id w))) = Some w.
Proof.
  intros Hnd Hin.
  assert (Hsame : filteredWorkflows toLowerCase ws (dispatch st (SetSelectedWorkflowId (id w)))
                  = filteredWorkflows toLowerCase ws st) by reflexivity.
  split; [exact Hsame |].
  unfold selectedWorkflow. rewrite Hsame. cbn [dispatch selectedWorkflowId].
  apply resolveSelection_unique; [now apply filtered_ids_distinct | exact Hin | reflexivity].
Qed.

(** When the ids of the collection are distinct, the highlighted rows of the
    list are exactly the workflow of the detail pane: one row when the list
    is not empty, none otherwise. *)
Theorem one_row_highlighted (ws : list Workflow) (st : DashboardState) :
  NoDup (List.map id ws) ->
  List.filter (rowHighlighted toLowerCase ws st) (filteredWorkflows toLowerCase ws st)
  = match selectedWorkflow toLowerCase ws st with
    | Some w => [w]
    | None => []
    end.
Proof.
  intros Hnd. unfold rowHighlighted.
  destruct (selectedWorkflow toLowerCase ws st) as [w |] eqn:Esel; cbn [fmap option_fmap option_map].
  - apply (filter_same_key id).
    + now apply filtered_ids_distinct.
    + unfold selectedWorkflow in Esel. now apply resolveSelection_member in Esel.
  - apply List.filter_false.
Qed.

(** A fresh component over a non-empty collection lists every workflow, in
    order, and shows the first one in the detail pane. *)
Theorem initial_render (first : Workflow) (rest : list Workflow) :
  filteredWorkflows toLowerCase (first :: rest) (initialState (first :: rest))
  = first :: rest /\
  selectedWorkflow toLowerCase (first :: rest) (initialState (first :: rest)) = Some first.
Proof.
  assert (Hall : filteredWorkflows toLowerCase (first :: rest) (initialState (first :: rest))
                 = first :: rest) by apply filteredWorkflows_all.
  split; [exact Hall |].
  unfold selectedWorkflow. rewrite Hall.
  unfold resolveSelection, JS.find. cbn [List.find initialState selectedWorkflowId].
  cbn [lookup list_lookup fmap option_fmap option_map JS.nullishOr].
  now rewrite String.eqb_refl.
Qed.

End SelectionAndList.

(** ** Further facts: the client selector (lines 94-97) *)

Lemma existsb_eqb_In (x : string) (s : list string) :
  existsb (String.eqb x) s = true <-> In x s.
Proof.
  rewrite existsb_exists. split.
  - intros [y [Hy Heq]]. apply String.eqb_eq in Heq. now subst.
  - intros H. exists x. split; [exact H | apply String.eqb_refl].
Qed.

Lemma Set_add_In (s : list string) (x y : string) :
  In y (Set_add s x) <-> In y s \/ y = x.
Proof.
  unfold Set_add. destruct (existsb (String.eqb x) s) eqn:E.
  - apply existsb_eqb_In in E. split; [now left | intros [H | ->]; assumption].
  - rewrite in_app_iff. cbn. intuition congruence.
Qed.

Lemma Set_add_NoDup (s : list string) (x : string) : NoDup s -> NoDup (Set_add s x).
Proof.
  intros Hnd. unfold Set_add. destruct (existsb (String.eqb x) s) eqn:E; [exact Hnd |].
  apply NoDup_ListNoDup, List.NoDup_app; [now apply NoDup_ListNoDup | | ].
  - repeat constructor. intros [].
  - intros y Hy [<- | []]. apply existsb_eqb_In in Hy. congruence.
Qed.

Lemma fold_Set_add_In (l acc : list string) (y : string) :
  In y (fold_left Set_add l acc) <-> In y acc \/ In y l.
Proof.
  revert acc. induction l as [| x l IH]; intros acc; cbn [fold_left].
  - cbn. tauto.
  - rewrite IH, Set_add_In. cbn. intuition congruence.
Qed.

Lemma fold_Set_add_NoDup (l acc : list string) :
  NoDup acc -> NoDup (fold_left Set_add l acc).
Proof.
  revert acc. induction l as [| x l IH]; intros acc Hnd; cbn [fold_left]; [exact Hnd |].
  apply IH. now apply Set_add_NoDup.
Qed.

Lemma fold_Set_add_extends (l acc : list string) :
  exists ext, fold_left Set_add l acc = (acc ++ ext)%list.
Proof.
  revert acc. induction l as [| x l IH]; intros acc; cbn [fold_left].
  - exists []. now rewrite app_nil_r.
  - destruct (IH (Set_add acc x)) as [ext ->]. unfold Set_add.
    destruct (existsb (String.eqb x) acc).
    + now exists ext.
    + exists (x :: ext). now rewrite <- app_assoc.
Qed.

(** The client selector starts with "all"; after it come the clients of the
    collection, each once.  Appending workflows to the collection only
    appends options, so the clients stand in the order of their first
    workflow.  The whole option list is free of duplicates exactly when no
    workflow belongs to a client called "all". *)
Theorem clients_spec (ws : list Workflow) :
  hd_error (clients ws) = Some "all" /\
  NoDup (tl (clients ws)) /\
  (forall c, In c (tl (clients ws)) <-> exists w, In w ws /\ client w = c) /\
  (forall more, exists ext, clients (ws ++ more)%list = (clients ws ++ ext)%list) /\
  (NoDup (clients ws) <-> forall w, In w ws -> client w <> "all").
Proof.
  unfold clients, new_Set. cbn [hd_error tl].
  assert (Hin : forall c, In c (fold_left Set_add (List.map client ws) [])
                          <-> exists w, In w ws /\ client w = c).
  { intros c. rewrite fold_Set_add_In, in_map_iff. cbn. split.
    - intros [[] | [w [Hc Hw]]]. now exists w.
    - intros [w [Hw Hc]]. right. now exists w. }
  assert (Hnd : NoDup (fold_left Set_add (List.map client ws) []))
    by (apply fold_Set_add_NoDup; constructor).
  split; [reflexivity | split; [exact Hnd | split; [exact Hin | split]]].
  - intros more. rewrite List.map_app, fold_left_app.
    destruct (fold_Set_add_extends (List.map client more)
                (fold_left Set_add (List.map client ws) [])) as [ext ->].
    now exists ext.
  - rewrite NoDup_cons, list_elem_of_In, Hin. split.
    + intros [Hall _] w Hw Hc. apply Hall. now exists w.
    + intros H. split; [| exact Hnd]. intros [w [Hw Hc]]. now apply (H w).
Qed.

Section ClientOptions.

Variable toLowerCase : string -> string.

(** Over a non-empty collection every option of the client selector, taken
    with status "all" and an empty search, lists at least one workflow. *)
Theorem client_option_lists_a_workflow (ws : list Workflow) (c selectedId : string) :
  ws <> [] ->
  In c (clients ws) ->
  filteredWorkflows toLowerCase ws
    {| clientFilter := c; statusFilter := StatusAll; searchTerm := "";
       selectedWorkflowId := selectedId |} <> [].
Proof.
  intros Hne Hc. destruct (String.eqb_spec c "all") as [-> | Hnot].
  - now rewrite filteredWorkflows_all.
  - destruct Hc as [Hc | Hc]; [congruence |].
    apply fold_Set_add_In in Hc as [[] | Hc].
    apply in_map_iff in Hc as [w [Hw Hin]].
    assert (Hlisted : In w (filteredWorkflows toLowerCase ws
                              {| clientFilter := c; statusFilter := StatusAll;
                                 searchTerm := ""; selectedWorkflowId := selectedId |})).
    { unfold filteredWorkflows. apply List.filter_In. split; [exact Hin |].
      unfold workflowMatches. cbn [clientFilter statusFilter searchTerm].
      rewrite Hw, String.eqb_refl, orb_true_r. reflexivity. }
    intros Hnil. rewrite Hnil in Hlisted. destruct Hlisted.
Qed.

(** A client filter that is not an option of the selector lists nothing,
    whatever the status filter and the search term: the list is empty and
    the detail pane has no workflow. *)
Theorem unknown_client_lists_nothing (ws : list Workflow) (st : DashboardState) :
  ~ In (clientFilter st) (clients ws) ->
  filteredWorkflows toLowerCase ws st = [] /\
  selectedWorkflow toLowerCase ws st = None.
Proof.
  intros Hout.
  assert (Hnil : filteredWorkflows toLowerCase ws st = []).
  { unfold filteredWorkflows. apply filter_none. intros w Hw.
    unfold workflowMatches.
    replace (String.eqb (clientFilter st) "all") with false.
    - replace (String.eqb (client w) (clientFilter st)) with false; [reflexivity |].
      symmetry. apply String.eqb_neq. intros Heq. apply Hout. right.
      apply fold_Set_add_In. right. rewrite <- Heq. now apply in_map.
    - symmetry. apply String.eqb_neq. intros Heq. apply Hout. left. now symmetry. }
  split; [exact Hnil |].
  unfold selectedWorkflow. now rewrite Hnil.
Qed.

End ClientOptions.

(** ** Further facts: the shape of the relative-time labels *)

Lemma toString_first (n : Z) :
  exists c rest,
    JS.toString n = String c rest /\
    In c (list_ascii_of_string "0123456789-").
Proof.
  unfold JS.toString. destruct (Z.to_int n) as [d | d]; cbn.
  - destruct d; cbn; eexists; eexists; (split; [reflexivity | cbn; tauto]).
  - eexists; eexists; (split; [reflexivity | cbn; tauto]).
Qed.

Lemma formatPast_shape (diffMs : Z) :
  0 <= diffMs ->
  (diffMs < 30000 /\ formatPast diffMs = "Now") \/
  (30000 <= diffMs /\
   ((exists m, 1 <= m <= 59 /\ formatPast diffMs = JS.toString m +:+ " min ago") \/
    (exists h, 1 <= h <= 23 /\ formatPast diffMs = JS.toString h +:+ " hr ago") \/
    (exists n, 1 <= n /\ formatPast diffMs = JS.toString n +:+ "d ago"))).
Proof.
  intros Hd. destruct (formatPast_tiers diffMs) as (P1 & P2 & P3 & P4). cbv zeta in *.
  round_bounds diffMs 60000. round_bounds (JS.Math_round diffMs 60000) 60.
  round_bounds (JS.Math_round (JS.Math_round diffMs 60000) 60) 24.
  destruct (Z_lt_le_dec diffMs 30000); [left; split; [lia | apply P1; lia] | right].
  split; [lia |].
  destruct (Z_lt_le_dec diffMs 3570000);
    [left; eexists; split; [| apply P2; lia]; lia |].
  destruct (Z_lt_le_dec diffMs 84570000);
    [right; left; eexists; split; [| apply P3; lia]; lia |].
  right; right; eexists; split; [| apply P4; lia]; lia.
Qed.

Lemma formatFuture_shape (diffMs : Z) :
  diffMs < 0 ->
  (-30000 <= diffMs /\ formatFuture diffMs = "In moments") \/
  (diffMs < -30000 /\
   ((exists m, 1 <= m <= 59 /\ formatFuture diffMs = "In " +:+ JS.toString m +:+ " min") \/
    (exists h, 1 <= h <= 23 /\ formatFuture diffMs = "In " +:+ JS.toString h +:+ " hr") \/
    (exists n, 1 <= n /\ formatFuture diffMs = "In " +:+ JS.toString n +:+ "d"))).
Proof.
  intros Hd. destruct (formatFuture_tiers diffMs) as (F1 & F2 & F3 & F4). cbv zeta in *.
  round_bounds diffMs 60000. round_bounds (- JS.Math_round diffMs 60000) 60.
  round_bounds (JS.Math_round (- JS.Math_round diffMs 60000) 60) 24.
  destruct (Z_lt_le_dec diffMs (-30000)); [right | left; split; [lia | apply F1; lia]].
  split; [lia |].
  destruct (Z_lt_le_dec diffMs (-3570000));
    [| left; eexists; split; [| apply F2; lia]; lia].
  destruct (Z_lt_le_dec diffMs (-84570000));
    [| right; left; eexists; split; [| apply F3; lia]; lia].
  right; right; eexists; split; [| apply F4; lia]; lia.
Qed.

(** A label whose first character is a digit or a minus sign differs from a
    text starting with another character. *)
Ltac number_first n :=
  let c := fresh "c" in
  let rest := fresh "rest" in
  let E := fresh "E" in
  let Hc := fresh "Hc" in
  destruct (toString_first n) as (c & rest & E & Hc);
  rewrite E; cbn in Hc |- *;
  intuition (subst; discriminate).

(** The label of a valid target always has one of eight shapes, and the
    number it shows is never 0: minutes run from 1 to 59, hours from 1 to 23,
    days from 1 upwards, for past targets ("... ago") and future ones
    ("In ...") alike. *)
Theorem formatRelative_shape (now t : Z) :
  let label := formatRelative (Some t) now in
  (0 <= now - t < 30000 /\ label = "Now") \/
  (30000 <= now - t /\
   ((exists m, 1 <= m <= 59 /\ label = JS.toString m +:+ " min ago") \/
    (exists h, 1 <= h <= 23 /\ label = JS.toString h +:+ " hr ago") \/
    (exists n, 1 <= n /\ label = JS.toString n +:+ "d ago"))) \/
  (-30000 <= now - t < 0 /\ label = "In moments") \/
  (now - t < -30000 /\
   ((exists m, 1 <= m <= 59 /\ label = "In " +:+ JS.toString m +:+ " min") \/
    (exists h, 1 <= h <= 23 /\ label = "In " +:+ JS.toString h +:+ " hr") \/
    (exists n, 1 <= n /\ label = "In " +:+ JS.toString n +:+ "d"))).
Proof.
  cbv zeta. rewrite formatRelative_unfold.
  destruct (Z_lt_le_dec (now - t) 0) as [Hneg | Hpos].
  - rewrite formatRelativeAt_future by exact Hneg.
    destruct (formatFuture_shape (now - t) Hneg) as [[H1 H2] | [H1 H2]].
    + right; right; left. split; [lia | exact H2].
    + right; right; right. split; [exact H1 | exact H2].
  - rewrite formatRelativeAt_past by exact Hpos.
    destruct (formatPast_shape (now - t) Hpos) as [[H1 H2] | [H1 H2]].
    + left. split; [lia | exact H2].
    + right; left. split; [exact H1 | exact H2].
Qed.

(** The label is "Now" exactly for a target between 0 s and 30 s back, and
    "In moments" exactly for a target at most 30 s ahead. *)
Theorem formatRelative_now_iff (now t : Z) :
  (formatRelative (Some t) now = "Now" <-> 0 <= now - t < 30000) /\
  (formatRelative (Some t) now = "In moments" <-> -30000 <= now - t < 0).
Proof.
  rewrite formatRelative_unfold.
  destruct (Z_lt_le_dec (now - t) 0) as [Hneg | Hpos].
  - rewrite formatRelativeAt_future by exact Hneg.
    destruct (formatFuture_shape (now - t) Hneg)
      as [[H1 ->] | [H1 [(m & _ & ->) | [(h & _ & ->) | (n & _ & ->)]]]].
    + split; split; try discriminate; try lia; reflexivity.
    + split; (split; [| lia]); [discriminate |]. cbn. number_first m.
    + split; (split; [| lia]); [discriminate |]. cbn. number_first h.
    + split; (split; [| lia]); [discriminate |]. cbn. number_first n.
  - rewrite formatRelativeAt_past by exact Hpos.
    destruct (formatPast_shape (now - t) Hpos)
      as [[H1 ->] | [H1 [(m & _ & ->) | [(h & _ & ->) | (n & _ & ->)]]]].
    + split; split; try discriminate; try lia; reflexivity.
    + split; (split; [| lia]); number_first m.
    + split; (split; [| lia]); number_first h.
    + split; (split; [| lia]); number_first n.
Qed.

Ltac number_not_In n :=
  let c := fresh "c" in
  let rest := fresh "rest" in
  let E := fresh "E" in
  let Hc := fresh "Hc" in
  destruct (toString_first n) as (c & rest & E & Hc);
  rewrite E; cbn in Hc;
  repeat (destruct Hc as [<- | Hc]; [reflexivity |]); destruct Hc.

(** The label of a valid target starts with "In " exactly when the target
    lies in the future, so the direction can always be read off the label. *)
Theorem formatRelative_direction (now t : Z) :
  JS.startsWith (formatRelative (Some t) now) "In " = true <-> now - t < 0.
Proof.
  rewrite formatRelative_unfold.
  destruct (Z_lt_le_dec (now - t) 0) as [Hneg | Hpos].
  - rewrite formatRelativeAt_future by exact Hneg. split; [intros _; exact Hneg | intros _].
    destruct (formatFuture_shape (now - t) Hneg)
      as [[_ ->] | [_ [(m & _ & ->) | [(m & _ & ->) | (m & _ & ->)]]]];
      [reflexivity | ..];
      destruct (toString_first m) as (c & rest & -> & _); reflexivity.
  - rewrite formatRelativeAt_past by exact Hpos. split; [| lia].
    intros H. exfalso. revert H. apply not_true_iff_false.
    destruct (formatPast_shape (now - t) Hpos)
      as [[_ ->] | [_ [(m & _ & ->) | [(h & _ & ->) | (n & _ & ->)]]]].
    + reflexivity.
    + number_not_In m.
    + number_not_In h.
    + number_not_In n.
Qed.

Lemma Math_round_opp (d : Z) :
  d mod 60000 <> 30000 -> JS.Math_round (- d) 60000 = - JS.Math_round d 60000.
Proof.
  intros Htie. apply Math_round_spec; [lia |].
  round_bounds d 60000.
  assert (2 * d <> 2 * 60000 * JS.Math_round d 60000 - 60000).
  { intros Heq. apply Htie.
    replace d with (30000 + (JS.Math_round d 60000 - 1) * 60000) by lia.
    now rewrite Z.mod_add by lia. }
  lia.
Qed.

(** Away from the half-minute ties, a target as far ahead as another is back
    gets the same number and unit: "In moments" against "Now", and
    "In n unit" against "n unit ago". *)
Theorem formatRelative_mirror (now d : Z) :
  0 < d ->
  d mod 60000 <> 30000 ->
  (formatRelative (Some (now - d)) now = "Now" /\
   formatRelative (Some (now + d)) now = "In moments") \/
  (exists n unit,
     In unit [" min"; " hr"; "d"] /\
     formatRelative (Some (now - d)) now = JS.toString n +:+ unit +:+ " ago" /\
     formatRelative (Some (now + d)) now = "In " +:+ JS.toString n +:+ unit).
Proof.
  intros Hd Htie. rewrite !formatRelative_unfold.
  rewrite formatRelativeAt_past, formatRelativeAt_future by lia.
  replace (now - (now - d)) with d by lia. replace (now - (now + d)) with (- d) by lia.
  unfold formatPast, formatFuture, JS.Math_abs.
  rewrite (Math_round_opp d Htie), Z.abs_opp.
  rewrite (Z.abs_eq (JS.Math_round d 60000)) by (apply Math_round_nonneg; lia).
  cbv zeta.
  destruct (JS.Math_round d 60000 <? 1); [left; split; reflexivity | right].
  destruct (JS.Math_round d 60000 <? 60).
  { exists (JS.Math_round d 60000), " min". cbn. tauto. }
  destruct (JS.Math_round (JS.Math_round d 60000) 60 <? 24).
  { exists (JS.Math_round (JS.Math_round d 60000) 60), " hr". cbn. tauto. }
  exists (JS.Math_round (JS.Math_round (JS.Math_round d 60000) 60) 24), "d". cbn. tauto.
Qed.

Section NextRun.

Variable Date_getTime : string -> TimeValue.

Lemma formatRelative_not_on_demand (then_ : TimeValue) (wall : Z) :
  formatRelative then_ wall <> "On demand".
Proof.
  rewrite formatRelative_unfold. destruct then_ as [t |]; [| discriminate].
  destruct (Z_lt_le_dec (wall - t) 0) as [Hneg | Hpos].
  - rewrite formatRelativeAt_future by exact Hneg.
    destruct (formatFuture_shape (wall - t) Hneg)
      as [[_ ->] | [_ [(m & _ & ->) | [(h & _ & ->) | (n & _ & ->)]]]]; discriminate.
  - rewrite formatRelativeAt_past by exact Hpos.
    destruct (formatPast_shape (wall - t) Hpos)
      as [[_ ->] | [_ [(m & _ & ->) | [(h & _ & ->) | (n & _ & ->)]]]].
    + discriminate.
    + number_first m.
    + number_first h.
    + number_first n.
Qed.

(** The "Next run" text is "On demand" exactly when the workflow has no
    [nextRunAt] or an empty one, at every clock reading and however the date
    string parses; a scheduled workflow never reads "On demand". *)
Theorem nextRunLabel_on_demand (workflow : Workflow) (wall : Z) :
  nextRunLabel Date_getTime workflow wall = "On demand"
  <-> nextRunAt workflow = None \/ nextRunAt workflow = Some "".
Proof.
  unfold nextRunLabel. destruct (nextRunAt workflow) as [iso |].
  - destruct iso as [| c iso]; cbn [String.length Nat.eqb].
    + split; [intros _; now right | reflexivity].
    + split.
      * intros H. now apply formatRelative_not_on_demand in H.
      * intros [H | H]; discriminate.
  - split; [intros _; now left | reflexivity].
Qed.

End NextRun.

(** ** Further facts: the execution trend and the status tables *)

(** The height of a bar always lies between 14 and 60, it never decreases
    when the duration grows, and for a duration between 5.6 s and 24 s it is
    2.5 times the duration. *)
Theorem barHeight_clamped (run : Run) :
  (14 <= barHeight run <= 60)%Q /\
  (forall run', (durationSeconds run <= durationSeconds run')%Q ->
                (barHeight run <= barHeight run')%Q) /\
  ((28 # 5 <= durationSeconds run <= 24)%Q ->
   (barHeight run == durationSeconds run * (5 # 2))%Q).
Proof.
  unfold barHeight. split; [split |]; [| | split].
  - apply Q.le_max_l.
  - apply Q.max_lub; [lra | apply Q.le_min_r].
  - intros run' Hle. apply Q.max_le_compat_l, Q.min_le_compat_r. lra.
  - intros [Hlo Hhi]. rewrite Q.min_l by lra. apply Q.max_r. lra.
Qed.

(** The caption under a bar is "Clean" exactly for a run without errors; a
    run with errors is captioned with their count. *)
Theorem issueLabel_clean (run : Run) :
  (issueLabel run = "Clean" <-> errors run = 0%N) /\
  (errors run <> 0%N ->
   issueLabel run = JS.toString (Z.of_N (errors run)) +:+ " issue").
Proof.
  unfold issueLabel, hasError. destruct (N.ltb_spec 0 (errors run)) as [Hpos | Hzero].
  - split; [| reflexivity]. split; [| lia]. number_first (Z.of_N (errors run)).
  - split; [split; [lia | reflexivity] | lia].
Qed.

(** The status selector offers every filter value exactly once, its labels
    are pairwise different, and the button of a status carries the label
    that the badge of that status shows. *)
Theorem statusFilters_complete :
  NoDup (List.map fst statusFilters) /\
  NoDup (List.map snd statusFilters) /\
  (forall f, In f (List.map fst statusFilters)) /\
  (forall s, In (StatusIs s, label (statusConfig s)) statusFilters).
Proof.
  split; [| split; [| split]].
  - cbn. repeat (apply NoDup_cons; split; [rewrite list_elem_of_In; cbn; intuition discriminate |]).
    constructor.
  - cbn. repeat (apply NoDup_cons; split; [rewrite list_elem_of_In; cbn; intuition discriminate |]).
    constructor.
  - intros [| []]; cbn; tauto.
  - intros []; cbn; tauto.
Qed.

(** ** Further facts: clearing a filter *)

Lemma filter_sublist_impl {A : Type} (f g : A -> bool) (l : list A) :
  (forall x, f x = true -> g x = true) -> sublist (List.filter f l) (List.filter g l).
Proof.
  intros Himpl. induction l as [| a l IH]; cbn; [constructor |].
  destruct (f a) eqn:Ef.
  - rewrite (Himpl a Ef). now constructor.
  - destruct (g a); [now constructor | exact IH].
Qed.

Section ClearingFilters.

Variable toLowerCase : string -> string.

(** Clearing a filter never hides a workflow: the list under any state is a
    subsequence of the list obtained after the client filter is set to
    "all", after the status filter is set to "all", and after the search box
    is emptied. *)
Theorem clearing_a_filter_widens (ws : list Workflow) (st : DashboardState) :
  sublist (filteredWorkflows toLowerCase ws st)
          (filteredWorkflows toLowerCase ws (dispatch st (SetClientFilter "all"))) /\
  sublist (filteredWorkflows toLowerCase ws st)
          (filteredWorkflows toLowerCase ws (dispatch st (SetStatusFilter StatusAll))) /\
  sublist (filteredWorkflows toLowerCase ws st)
          (filteredWorkflows toLowerCase ws (dispatch st (SetSearchTerm ""))).
Proof.
  unfold filteredWorkflows.
  split; [| split]; apply filter_sublist_impl; intros w; unfold workflowMatches;
    cbn [dispatch clientFilter statusFilter searchTerm];
    rewrite !andb_true_iff; intros [[Hc Hs] Ht]; repeat split;
    try assumption; reflexivity.
Qed.

End ClearingFilters.

(** ** The further facts at work on the sample data *)

Lemma selectedWorkflow_listed_witness :
  selectedWorkflow JS.ascii_toLowerCase sampleWorkflows stateClientA = Some wfSync /\
  In wfSync (filteredWorkflows JS.ascii_toLowerCase sampleWorkflows stateClientA) /\
  workflowMatches JS.ascii_toLowerCase stateClientA wfSync = true.
Proof.
  split; [reflexivity |].
  apply (proj1 (selectedWorkflow_listed JS.ascii_toLowerCase sampleWorkflows stateClientA)
           wfSync eq_refl).
Defined.

Lemma click_selects_row_witness :
  In wfBilling (filteredWorkflows JS.ascii_toLowerCase sampleWorkflows stateClientA) /\
  selectedWorkflow JS.ascii_toLowerCase sampleWorkflows
    (dispatch stateClientA (SetSelectedWorkflowId "wf-2")) = Some wfBilling.
Proof.
  assert (Hin : In wfBilling (filteredWorkflows JS.ascii_toLowerCase sampleWorkflows stateClientA))
    by (right; left; reflexivity).
  split; [exact Hin |].
  apply (proj2 (click_selects_row JS.ascii_toLowerCase sampleWorkflows stateClientA wfBilling
                  sample_ids_distinct Hin)).
Defined.

Lemma one_row_highlighted_witness :
  List.filter (rowHighlighted JS.ascii_toLowerCase sampleWorkflows stateClientA)
    (filteredWorkflows JS.ascii_toLowerCase sampleWorkflows stateClientA) = [wfSync].
Proof.
  apply (one_row_highlighted JS.ascii_toLowerCase sampleWorkflows stateClientA
           sample_ids_distinct).
Defined.

Lemma clients_spec_witness :
  clients sampleWorkflows = ["all"; "A"; "B"] /\ NoDup (clients sampleWorkflows).
Proof.
  split; [reflexivity |].
  apply (proj2 (proj2 (proj2 (proj2 (clients_spec sampleWorkflows))))).
  intros w [<- | [<- | [<- | []]]]; discriminate.
Defined.

Lemma client_option_lists_a_workflow_witness :
  In "B" (clients sampleWorkflows) /\
  filteredWorkflows JS.ascii_toLowerCase sampleWorkflows
    {| clientFilter := "B"; statusFilter := StatusAll; searchTerm := "";
       selectedWorkflowId := "wf-1" |} <> [].
Proof.
  assert (Hin : In "B" (clients sampleWorkflows)) by (right; right; left; reflexivity).
  split; [exact Hin |].
  apply (client_option_lists_a_workflow JS.ascii_toLowerCase sampleWorkflows "B" "wf-1");
    [discriminate | exact Hin].
Defined.

Lemma unknown_client_lists_nothing_witness :
  filteredWorkflows JS.ascii_toLowerCase sampleWorkflows
    {| clientFilter := "Z"; statusFilter := StatusIs healthy; searchTerm := "sync";
       selectedWorkflowId := "wf-1" |} = [] /\
  selectedWorkflow JS.ascii_toLowerCase sampleWorkflows
    {| clientFilter := "Z"; statusFilter := StatusIs healthy; searchTerm := "sync";
       selectedWorkflowId := "wf-1" |} = None.
Proof.
  apply (unknown_client_lists_nothing JS.ascii_toLowerCase sampleWorkflows).
  cbn. intros [H | [H | [H | []]]]; discriminate.
Defined.

Lemma formatRelative_now_iff_witness :
  formatRelative (Some 1000) 30999 = "Now" /\
  formatRelative (Some 31000) 1000 = "In moments".
Proof.
  split.
  - apply (proj1 (formatRelative_now_iff 30999 1000)). lia.
  - apply (proj2 (formatRelative_now_iff 1000 31000)). lia.
Defined.

Lemma formatRelative_direction_witness :
  JS.startsWith (formatRelative (Some 7200000) 0) "In " = true.
Proof. apply (formatRelative_direction 0 7200000). lia. Defined.

Lemma formatRelative_mirror_witness :
  exists n unit,
    In unit [" min"; " hr"; "d"] /\
    formatRelative (Some (10000000 - 5400001)) 10000000 = JS.toString n +:+ unit +:+ " ago" /\
    formatRelative (Some (10000000 + 5400001)) 10000000 = "In " +:+ JS.toString n +:+ unit.
Proof.
  destruct (formatRelative_mirror 10000000 5400001 ltac:(lia) ltac:(discriminate))
    as [[H _] | H].
  - discriminate H.
  - exact H.
Defined.

Lemma nextRunLabel_on_demand_witness :
  nextRunLabel (fun _ => Some 0) wfBilling 5000 = "On demand".
Proof.
  apply (nextRunLabel_on_demand (fun _ => Some 0) wfBilling 5000). now left.
Defined.

Lemma barHeight_clamped_witness :
  (barHeight (mkRun "run-1" "2024-05-01T08:00:00Z" 10 0)
   <= barHeight (mkRun "run-2" "2024-05-01T09:00:00Z" 20 2))%Q /\
  (barHeight (mkRun "run-1" "2024-05-01T08:00:00Z" 10 0) == 25)%Q.
Proof.
  split.
  - apply (proj1 (proj2 (barHeight_clamped (mkRun "run-1" "2024-05-01T08:00:00Z" 10 0)))).
    cbn. lra.
  - rewrite (proj2 (proj2 (barHeight_clamped (mkRun "run-1" "2024-05-01T08:00:00Z" 10 0)))).
    + reflexivity.
    + cbn. lra.
Defined.

Lemma issueLabel_clean_witness :
  issueLabel (mkRun "run-2" "2024-05-01T09:00:00Z" 20 2) = "2 issue" /\
  issueLabel (mkRun "run-1" "2024-05-01T08:00:00Z" 10 0) = "Clean".
Proof.
  split.
  - apply (proj2 (issueLabel_clean (mkRun "run-2" "2024-05-01T09:00:00Z" 20 2))). discriminate.
  - apply (proj1 (issueLabel_clean (mkRun "run-1" "2024-05-01T08:00:00Z" 10 0))). reflexivity.
Defined.
